(** * The structured logger of [src/python/logger.py]

    A shallow embedding of the class [Logger]: its constructor, the shared
    routine [_log] and the four severity methods [info], [error], [debug]
    and [warn], followed by the properties of the payload that reaches the
    sender's [send_no_wait]. *)

From Stdlib Require Import ZArith QArith Sorting.Sorted.
From stdpp Require Import gmap strings list fin_maps.

Set Warnings "-register-all".

Local Open Scope Z_scope.
Local Open Scope string_scope.

(** ** Python values *)

(** What [bool(obj)] does for an instance of a user class: the class has
    neither [__bool__] nor [__len__] (every instance is true), or its hook
    answers, or its hook raises. *)
Inductive truth_hook : Type :=
| NoHook
| HookAnswers (b : bool)
| HookRaises.

(** What reading [obj.__dict__] does for an instance of a class that
    defines [__dict__] itself, as a property: the property returns a number
    (a value that is no mapping and cannot be iterated), or it raises an
    exception other than [AttributeError]. *)
Inductive dict_slot : Type :=
| SlotNumber (z : Z)
| SlotRaises.

(** The values a caller can pass as [args].  A dict is a finite map from
    string keys (the annotation [Dict[str, Any]]).  [VDict] is an instance
    of [dict] itself, which has no [__dict__]; [VObj] is an instance of an
    ordinary class, with its attribute dictionary [__dict__]; [VMapObj] is
    an instance of a subclass of [dict] ([OrderedDict], [Counter], a class
    of the caller), which has the entries of the mapping and, beside them,
    an attribute dictionary; [VOdd] is an instance of a class whose
    [__dict__] is a property. *)
Inductive pyval : Type :=
| VNone
| VBool (b : bool)
| VInt (z : Z)
| VStr (s : string)
| VList (l : list pyval)
| VDict (d : gmap string pyval)
| VObj (hook : truth_hook) (attrs : gmap string pyval)
| VMapObj (entries : gmap string pyval) (attrs : gmap string pyval)
| VOdd (hook : truth_hook) (slot : dict_slot).

Abbreviation dict := (gmap string pyval).

Inductive pyexn : Type :=
| TypeError
| HookError
| SenderError.

(** The outcome of evaluating an expression or running a statement. *)
Inductive result (A : Type) : Type :=
| Ok (a : A)
| Raise (e : pyexn).
Arguments Ok {A} a.
Arguments Raise {A} e.

(** [bool(v)], as evaluated by [if args:]. *)
Definition truth (v : pyval) : result bool :=
  match v with
  | VNone => Ok false
  | VBool b => Ok b
  | VInt z => Ok (negb (Z.eqb z 0))
  | VStr s => Ok (negb (String.eqb s ""))
  | VList l => Ok (negb (bool_decide (l = [])))
  | VDict d => Ok (negb (bool_decide (d = ∅)))
  | VObj NoHook _ => Ok true
  | VObj (HookAnswers b) _ => Ok b
  | VObj HookRaises _ => Raise HookError
  | VMapObj entries _ => Ok (negb (bool_decide (entries = ∅)))
  | VOdd NoHook _ => Ok true
  | VOdd (HookAnswers b) _ => Ok b
  | VOdd HookRaises _ => Raise HookError
  end.

(** [hasattr(v, '__dict__')]: true of the instances of classes, those of
    subclasses of [dict] included, false of the built-in values; an
    exception of a [__dict__] property other than [AttributeError] is not
    caught by [hasattr]. *)
Definition hasattr_dict (v : pyval) : result bool :=
  match v with
  | VObj _ _ => Ok true
  | VMapObj _ _ => Ok true
  | VOdd _ (SlotNumber _) => Ok true
  | VOdd _ SlotRaises => Raise HookError
  | _ => Ok false
  end.

(** [vars(v)]: whatever [v.__dict__] is, the attribute dictionary itself
    for an ordinary instance; [TypeError] for a value that has none. *)
Definition vars (v : pyval) : result pyval :=
  match v with
  | VObj _ attrs => Ok (VDict attrs)
  | VMapObj _ attrs => Ok (VDict attrs)
  | VOdd _ (SlotNumber z) => Ok (VInt z)
  | VOdd _ SlotRaises => Raise HookError
  | _ => Raise TypeError
  end.

(** [isinstance(v, dict)]: true of a dict and of an instance of a subclass
    of [dict]. *)
Definition isinstance_dict (v : pyval) : bool :=
  match v with
  | VDict _ => true
  | VMapObj _ _ => true
  | _ => false
  end.

(** [d.update(other)]: every entry of the mapping [other] is written into
    [d], so on a common key the entry of [other] stays; [TypeError] when
    [other] is no mapping and cannot be iterated.  ([update] also takes an
    iterable of key and value pairs; [_log] passes it a dict or what
    [vars] returned, which among the values above is a dict or a number.) *)
Definition dict_update (d : dict) (other : pyval) : result dict :=
  match other with
  | VDict o => Ok (o ∪ d)
  | VMapObj o _ => Ok (o ∪ d)
  | _ => Raise TypeError
  end.

(** [int(x)] of a float: truncation towards zero.  A float is represented
    by the rational it denotes. *)
Definition int_of_float (x : Q) : Z := Z.quot (Qnum x) (Z.pos (Qden x)).

(** ** The sender and the logger instance *)

(** Modelled from the spec: the class [RpcSender] of the module [rpc],
    which the logger imports and which is not among the sources.  The
    logger uses one operation of it, [send_no_wait(event, payload)], which
    returns nothing.  The contract asks a sender to keep its failures to
    itself; [send_raises] tells on which calls a given sender breaks it and
    raises, so that a property can say where it relies on the contract. *)
Record RpcSender : Type := {
  sender_name : string;
  send_raises : string → dict → bool
}.

(** One call received by a sender. *)
Record RpcCall : Type := {
  callee : RpcSender;
  event : string;
  payload : dict
}.

(** The attributes [__init__] assigns. *)
Record Logger : Type := {
  trace_id : string;
  flows : list string;
  rpc : RpcSender
}.

(** What a method call can read and change: the instance it runs on, the
    wall clock (the float [time.time()] returns, in seconds) and the calls
    made on senders so far, oldest first. *)
Record State : Type := {
  self : Logger;
  clock : Q;
  wire : list RpcCall
}.

(** ** Statements: state passing with exceptions *)

Definition M (A : Type) : Type := State → result A * State.

#[global] Instance M_ret : MRet M := λ A a st, (Ok a, st).

#[global] Instance M_bind : MBind M := λ A B k c st,
  match c st with
  | (Ok a, st') => k a st'
  | (Raise e, st') => (Raise e, st')
  end.

(** An expression without effect, whose exception propagates. *)
Definition eval {A : Type} (r : result A) : M A := λ st, (r, st).

Definition get_self : M Logger := λ st, (Ok (self st), st).

Definition time_time : M Q := λ st, (Ok (clock st), st).

(** [sender.send_no_wait(ev, p)]: the call reaches the sender, which
    returns or raises. *)
Definition send_no_wait (sender : RpcSender) (ev : string) (p : dict) : M unit :=
  λ st,
    (if send_raises sender ev p then Raise SenderError else Ok tt,
     {| self := self st;
        clock := clock st;
        wire := wire st ++ [{| callee := sender; event := ev; payload := p |}] |}).

(** ** The class [Logger] *)

(** The constructor: three assignments, no check on any argument. *)
Definition __init__ (trace_id : string) (flows : list string) (rpc : RpcSender) : result Logger :=
  Ok {| trace_id := trace_id; flows := flows; rpc := rpc |}.

Section Methods.

(** The rounding of a real result to the nearest float. *)
Variable fl : Q → Q.

Definition float_mul (x y : Q) : Q := fl (x * y)%Q.

(** [int(time.time() * 1000)]. *)
Definition time_ms (t : Q) : Z := int_of_float (float_mul t (inject_Z 1000)).

(** The dict literal that opens [_log]. *)
Definition log_entry_of (level : string) (t : Q) (this : Logger) (message : string) : dict :=
  <["msg" := VStr message]>
    (<["flows" := VList (VStr <$> flows this)]>
       (<["traceId" := VStr (trace_id this)]>
          (<["time" := VInt (time_ms t)]>
             (<["level" := VStr level]> ∅)))).

Definition _log (level message : string) (args : pyval) : M unit :=
  this ← get_self;
  t ← time_time;
  let log_entry := log_entry_of level t this message in
  b ← eval (truth args);
  log_entry ← (if b : bool then
                 args ← (h ← eval (hasattr_dict args);
                         if h : bool then eval (vars args)
                         else if negb (isinstance_dict args)
                              then mret (VDict {["data" := args]})
                              else mret args);
                 eval (dict_update log_entry args)
               else mret log_entry);
  send_no_wait (rpc this) "log" log_entry.

(** A public method called without its second argument receives the
    default [None]. *)
Definition info (message : string) (args : option pyval) : M unit :=
  _log "info" message (default VNone args).

Definition error (message : string) (args : option pyval) : M unit :=
  _log "error" message (default VNone args).

Definition debug (message : string) (args : option pyval) : M unit :=
  _log "debug" message (default VNone args).

Definition warn (message : string) (args : option pyval) : M unit :=
  _log "warn" message (default VNone args).

End Methods.

(** ** Vocabulary of the properties *)

Inductive severity : Type := SInfo | SError | SDebug | SWarn.

Definition method_name (sev : severity) : string :=
  match sev with
  | SInfo => "info"
  | SError => "error"
  | SDebug => "debug"
  | SWarn => "warn"
  end.

(** The public method of a given severity. *)
Definition call (fl : Q → Q) (sev : severity) : string → option pyval → M unit :=
  match sev with
  | SInfo => info fl
  | SError => error fl
  | SDebug => debug fl
  | SWarn => warn fl
  end.

Definition base_keys : gset string := {[ "level"; "time"; "traceId"; "flows"; "msg" ]}.

(** The five base fields of a payload hold the given level, time, trace id,
    flows and message. *)
Definition has_base_fields (p : dict) (level : string) (ms : Z) (lg : Logger)
    (message : string) : Prop :=
  p !! "level" = Some (VStr level) ∧
  p !! "time" = Some (VInt ms) ∧
  p !! "traceId" = Some (VStr (trace_id lg)) ∧
  p !! "flows" = Some (VList (VStr <$> flows lg)) ∧
  p !! "msg" = Some (VStr message).

(** The fields a true [args] contributes to the merge: the attributes of an
    object (also when the object is a mapping), the entries of a dict,
    nothing for an object whose [__dict__] is a property, and one entry
    [data] for anything else. *)
Definition fields_of (args : pyval) : dict :=
  match args with
  | VObj _ attrs => attrs
  | VMapObj _ attrs => attrs
  | VOdd _ _ => ∅
  | VDict d => d
  | v => {[ "data" := v ]}
  end.

(** What [_log] merges into the literal, when it gets as far as the merge:
    nothing for a false [args], the fields of a true one; the exception of
    the truth test, of the [__dict__] property, or of [update] on a
    [__dict__] that is no mapping. *)
Definition merge_of (args : pyval) : result dict :=
  match truth args with
  | Raise e => Raise e
  | Ok false => Ok ∅
  | Ok true =>
      match args with
      | VOdd _ (SlotNumber _) => Raise TypeError
      | VOdd _ SlotRaises => Raise HookError
      | v => Ok (fields_of v)
      end
  end.


(** From [st] to [st'] exactly one call was made, on the sender of the
    instance, with event name ["log"] and payload [p]; the instance and the
    clock are as before. *)
Definition dispatches (st st' : State) (p : dict) : Prop :=
  st' = {| self := self st;
           clock := clock st;
           wire := wire st ++ [{| callee := rpc (self st); event := "log"; payload := p |}] |}.

(** The calls a statement adds to the wire. *)
Definition sent_by (c : M unit) (st : State) : list RpcCall :=
  drop (length (wire st)) (wire (snd (c st))).

(** A method call of a scenario: the wall-clock time at which it is made,
    the method and its arguments. *)
Record Invocation : Type := {
  at_time : Q;
  method : severity;
  message : string;
  extra : option pyval
}.

(** The state of a fresh instance at time [t0], before any call. *)
Definition fresh (lg : Logger) (t0 : Q) : State :=
  {| self := lg; clock := t0; wire := [] |}.




(** Sample data: a sender that never raises, an instance, a state, and a
    float product without rounding error (the sample clock values are small
    integers, whose product with 1000 is exact). *)
Definition quiet_sender : RpcSender :=
  {| sender_name := "rpc"; send_raises := λ _ _, false |}.

Definition sample_logger : Logger :=
  {| trace_id := "trace-1"; flows := ["flow-a"]; rpc := quiet_sender |}.

Definition sample_state : State := fresh sample_logger (10 # 1).

Definition exact : Q → Q := λ q, q.

(** An instance of a class whose [__bool__] raises. *)
Definition untestable : pyval := VObj HookRaises ∅.



Definition msg_override : dict := {[ "msg" := VStr "overridden" ]}.

(** An instance of a subclass of [dict] with the entry [msg] and no
    attribute. *)
Definition subclass_override : pyval := VMapObj msg_override ∅.

(** An instance of a class whose [__dict__] is a property returning 5. *)
Definition odd_object : pyval := VOdd NoHook (SlotNumber 5).

(** A call that raises before the send, a call that names [traceId], and a
    call that names nothing. *)
Definition mixed_calls : list Invocation :=
  [ {| at_time := 10 # 1; method := SInfo; message := "a"; extra := Some odd_object |};
    {| at_time := 11 # 1; method := SInfo; message := "b";
       extra := Some (VDict {[ "traceId" := VStr "other" ]}) |};
    {| at_time := 12 # 1; method := SError; message := "c"; extra := None |} ].




(** A sender that raises on every call, and an instance bound to it. *)
Definition loud_sender : RpcSender :=
  {| sender_name := "down"; send_raises := λ _ _, true |}.

Definition loud_state : State :=
  fresh {| trace_id := "trace-2"; flows := []; rpc := loud_sender |} (10 # 1).

(** An instance of a plain class with one attribute, which is itself an
    instance. *)
Definition sample_object : pyval :=
  VObj NoHook {[ "user" := VObj NoHook {[ "id" := VInt 42 ]} ]}.

(** The field [k] of every record of a list. *)
Definition field_of (k : string) (w : list RpcCall) : list (option pyval) :=
  (λ c, payload c !! k) <$> w.

(** The extra of a call supplies no field named [k]: no key of the dict,
    no attribute of the object, and [k] is not the key [data] of a wrapped
    value. *)
Definition leaves (k : string) (args : option pyval) : Prop :=
  fields_of (default VNone args) !! k = None.



(** The call reaches the sender. *)
Definition sends (c : Invocation) : bool :=
  match merge_of (default VNone (extra c)) with
  | Raise _ => false
  | Ok _ => true
  end.

(** The calls of a scenario that reach the sender, in their order. *)
Definition delivered (calls : list Invocation) : list Invocation :=
  filter (λ c, sends c = true) calls.


(** ** The routine [_log], step by step *)

Section Run.

Variable fl : Q → Q.

(** A call of [_log] either raises before the send, with the state
    untouched, or reaches [send_no_wait] with the merged entry. *)
Lemma _log_run level msg args st :
  _log fl level msg args st =
    match merge_of args with
    | Raise e => (Raise e, st)
    | Ok o =>
        send_no_wait (rpc (self st)) "log"
          (o ∪ log_entry_of fl level (clock st) (self st) msg) st
    end.
Proof.
  unfold _log, merge_of, mbind, M_bind, get_self, time_time, eval, mret, M_ret.
  destruct (truth args) as [[|]|e] eqn:Ht; simpl.
  - destruct args as [ | | | | | | | |hk []]; reflexivity.
  - by rewrite (left_id_L ∅ (∪)).
  - reflexivity.
Qed.

Lemma call_log sev msg args :
  call fl sev msg args = _log fl (method_name sev) msg (default VNone args).
Proof. by destruct sev. Qed.

End Run.

(** ** What is merged *)

Lemma merge_of_skip a : truth a = Ok false → merge_of a = Ok ∅.
Proof. unfold merge_of. by intros ->. Qed.

Lemma merge_of_raise a e : truth a = Raise e → merge_of a = Raise e.
Proof. unfold merge_of. by intros ->. Qed.



(** What is merged is nothing or the fields of the extra. *)
Lemma merge_of_leaves a o k :
  merge_of a = Ok o → fields_of a !! k = None → o !! k = None.
Proof.
  unfold merge_of. destruct (truth a) as [[|]|e]; [| |done].
  - destruct a as [ | | | | | | | |hk []]; intros [= <-]; done.
  - intros [= <-] _. apply lookup_empty.
Qed.

(** ** The dict literal *)

Section Entry.

Variable fl : Q → Q.

Lemma log_entry_base level t lg msg :
  has_base_fields (log_entry_of fl level t lg msg) level (time_ms fl t) lg msg.
Proof. unfold has_base_fields, log_entry_of. by simplify_map_eq. Qed.

Lemma log_entry_dom level t lg msg :
  dom (log_entry_of fl level t lg msg) = base_keys.
Proof.
  unfold log_entry_of, base_keys.
  rewrite !dom_insert_L, dom_empty_L. set_solver.
Qed.

Lemma log_entry_other level t lg msg k :
  k ∉ base_keys → log_entry_of fl level t lg msg !! k = None.
Proof. rewrite <- (log_entry_dom level t lg msg). apply not_elem_of_dom. Qed.

(** A field the extra does not name keeps the value of the literal. *)
Lemma merged_keeps (o : dict) level t lg msg k :
  o !! k = None →
  (o ∪ log_entry_of fl level t lg msg) !! k = log_entry_of fl level t lg msg !! k.
Proof. intros Hk. by apply lookup_union_r. Qed.

(** A field the extra names takes the value of the extra. *)
Lemma merged_overwrites (o : dict) level t lg msg k v :
  o !! k = Some v →
  (o ∪ log_entry_of fl level t lg msg) !! k = Some v.
Proof. intros Hk. by apply lookup_union_Some_l. Qed.

(** The payload of a merge: the keys of the literal and of the extra, with
    the value of the extra wherever it has one and the value of the literal
    elsewhere. *)
Lemma merged_shape (o : dict) level t lg msg :
  dom (o ∪ log_entry_of fl level t lg msg) = base_keys ∪ dom o ∧
  (∀ k v, o !! k = Some v → (o ∪ log_entry_of fl level t lg msg) !! k = Some v) ∧
  (∀ k, o !! k = None →
        (o ∪ log_entry_of fl level t lg msg) !! k = log_entry_of fl level t lg msg !! k).
Proof.
  split; [|split].
  - rewrite dom_union_L, log_entry_dom. apply (comm_L (∪)).
  - intros k v. apply merged_overwrites.
  - intros k. apply merged_keeps.
Qed.

End Entry.

(** ** Truncation and the clock *)



(** [int] of a float that is not negative is its integer part. *)
Lemma int_of_float_floor (x : Q) :
  (0 <= x)%Q →
  0 <= int_of_float x ∧
  (inject_Z (int_of_float x) <= x)%Q ∧
  (x < inject_Z (int_of_float x) + 1)%Q.
Proof.
  destruct x as [a b]. unfold Qle, Qlt, Qplus, inject_Z, int_of_float. simpl.
  intros Ha.
  assert (0 <= a) as Ha' by lia.
  pose proof (Z.quot_pos a (Z.pos b) Ha' ltac:(lia)) as Hq.
  pose proof (Z.mul_quot_le a (Z.pos b) Ha' ltac:(lia)) as Hle.
  pose proof (Z.mul_succ_quot_gt a (Z.pos b) Ha' ltac:(lia)) as Hgt.
  repeat split; lia.
Qed.

(** ** One call of a severity method *)

Section Call.

Variable fl : Q → Q.

(** When nothing raises before the send, the call makes exactly one
    dispatch, of the literal merged with what the extra contributes. *)
Lemma call_answers sev msg args st o :
  merge_of (default VNone args) = Ok o →
  dispatches st (snd (call fl sev msg args st))
    (o ∪ log_entry_of fl (method_name sev) (clock st) (self st) msg).
Proof. intros Ho. rewrite call_log, _log_run, Ho. reflexivity. Qed.

Lemma call_outcome sev msg args st o :
  merge_of (default VNone args) = Ok o →
  fst (call fl sev msg args st) =
    if send_raises (rpc (self st)) "log"
         (o ∪ log_entry_of fl (method_name sev) (clock st) (self st) msg)
    then Raise SenderError else Ok tt.
Proof. intros Ho. rewrite call_log, _log_run, Ho. reflexivity. Qed.

(** When something raises before the send, the call raises and nothing is
    sent. *)
Lemma call_stops sev msg args st e :
  merge_of (default VNone args) = Raise e →
  call fl sev msg args st = (Raise e, st).
Proof. intros He. rewrite call_log, _log_run, He. reflexivity. Qed.

Lemma call_skips sev msg args st :
  truth (default VNone args) = Ok false →
  dispatches st (snd (call fl sev msg args st))
    (log_entry_of fl (method_name sev) (clock st) (self st) msg).
Proof.
  intros Hb. pose proof (call_answers sev msg args st ∅ (merge_of_skip _ Hb)) as H.
  by rewrite (left_id_L ∅ (∪)) in H.
Qed.

Lemma dispatches_sent (c : M unit) st p :
  dispatches st (snd (c st)) p →
  sent_by c st = [{| callee := rpc (self st); event := "log"; payload := p |}].
Proof.
  unfold dispatches, sent_by. intros ->. simpl.
  by rewrite drop_app_length.
Qed.

Lemma call_sent sev msg args st :
  sent_by (call fl sev msg args) st =
    match merge_of (default VNone args) with
    | Raise _ => []
    | Ok o =>
        [{| callee := rpc (self st); event := "log";
            payload := o ∪ log_entry_of fl (method_name sev) (clock st) (self st) msg |}]
    end.
Proof.
  destruct (merge_of (default VNone args)) as [o|e] eqn:Hm.
  - by apply dispatches_sent, call_answers.
  - unfold sent_by. rewrite (call_stops _ _ _ _ e Hm). simpl. apply drop_all.
Qed.

(** A state cannot be both untouched and one dispatch longer. *)
Lemma dispatches_payload st st' p q :
  dispatches st st' p → dispatches st st' q → p = q.
Proof.
  unfold dispatches. intros -> [= H]. apply app_inv_head in H. congruence.
Qed.

Lemma dispatches_grows st p : ¬ dispatches st st p.
Proof.
  unfold dispatches. intros H. apply (f_equal (λ s, length (wire s))) in H.
  simpl in H. rewrite length_app in H. simpl in H. lia.
Qed.

(** C1: a true extra that is neither an object with attributes nor a dict
    is dispatched under the key [data], next to the five base fields. *)
Theorem C1_other_extra_is_wrapped_as_data sev msg extra st :
  truth extra = Ok true →
  hasattr_dict extra = Ok false →
  isinstance_dict extra = false →
  ∃ p, dispatches st (snd (call fl sev msg (Some extra) st)) p ∧
       has_base_fields p (method_name sev) (time_ms fl (clock st)) (self st) msg ∧
       p !! "data" = Some extra ∧
       dom p = base_keys ∪ {["data"]}.
Proof.
  intros Ht Hobj Hdict.
  assert (merge_of extra = Ok {["data" := extra]}) as Hm.
  { unfold merge_of. rewrite Ht.
    destruct extra as [ | | | | | | | |hk []]; simpl in *; congruence. }
  eexists. split; [by apply call_answers|].
  assert (∀ k, k ≠ "data" → ({["data" := extra]} : dict) !! k = None) as Hne
    by (intros k Hk; by apply lookup_singleton_ne).
  split; [|split].
  - pose proof (log_entry_base fl (method_name sev) (clock st) (self st) msg)
      as (Hl & Hti & Htr & Hf & Hm').
    unfold has_base_fields. rewrite !merged_keeps by (by apply Hne). done.
  - apply merged_overwrites, lookup_singleton_eq.
  - rewrite dom_union_L, dom_singleton_L, log_entry_dom. apply (comm_L (∪)).
Qed.

(** C2: for a plain dict as extra, the merge is made into the base record
    and after it: a key of the dict that is also a base field reaches the
    sender with the value of the dict, every key the dict does not have
    keeps the value of the base record, and no base key is lost. *)
Theorem C2_colliding_extra_field_wins sev msg (d : dict) k v st :
  k ∈ base_keys →
  d !! k = Some v →
  ∃ p, dispatches st (snd (call fl sev msg (Some (VDict d)) st)) p ∧
       is_Some (log_entry_of fl (method_name sev) (clock st) (self st) msg !! k) ∧
       p !! k = Some v ∧
       (∀ k', d !! k' = None →
              p !! k' = log_entry_of fl (method_name sev) (clock st) (self st) msg !! k') ∧
       dom p = base_keys ∪ dom d.
Proof.
  intros Hk Hd.
  assert (merge_of (VDict d) = Ok d) as Hm.
  { unfold merge_of. simpl. rewrite bool_decide_eq_false_2; [done|].
    intros ->. by rewrite lookup_empty in Hd. }
  eexists. split; [by apply call_answers|].
  destruct (merged_shape fl d (method_name sev) (clock st) (self st) msg)
    as (Hdom & Hin & Hout).
  split; [|split; [|split]].
  - apply elem_of_dom. by rewrite log_entry_dom.
  - by apply Hin.
  - exact Hout.
  - exact Hdom.
Qed.

(** C5: without an extra, with [None] or with the empty dict, the payload
    is the five base fields and nothing else. *)
Theorem C5_absent_or_empty_extra_gives_base_fields sev msg args st :
  args = None ∨ args = Some VNone ∨ args = Some (VDict ∅) →
  ∃ p, dispatches st (snd (call fl sev msg args st)) p ∧
       has_base_fields p (method_name sev) (time_ms fl (clock st)) (self st) msg ∧
       dom p = base_keys.
Proof.
  intros Hargs.
  assert (truth (default VNone args) = Ok false) as Ht
    by (destruct Hargs as [->|[->| ->]]; reflexivity).
  eexists. split; [by apply call_skips|].
  split; [apply log_entry_base | apply log_entry_dom].
Qed.

(** C10: an extra that the truth test finds false (0, the empty string,
    [False], the empty list, ...) is not merged: the payload is the five
    base fields, without a [data] key. *)
Theorem C10_falsy_extra_is_not_merged sev msg extra st :
  truth extra = Ok false →
  ∃ p, dispatches st (snd (call fl sev msg (Some extra) st)) p ∧
       has_base_fields p (method_name sev) (time_ms fl (clock st)) (self st) msg ∧
       dom p = base_keys ∧
       p !! "data" = None.
Proof.
  intros Ht. eexists. split; [by apply call_skips|].
  split; [apply log_entry_base|]. split; [apply log_entry_dom|].
  apply log_entry_other. unfold base_keys.
  rewrite !not_elem_of_union, !not_elem_of_singleton. by repeat split.
Qed.

End Call.

Section CallEffects.

Variable fl : Q → Q.




End CallEffects.

(** C8: the constructor returns for all arguments, and the instance holds
    the three arguments as given; the empty trace id and the empty list of
    flows are stored like any other. *)
Theorem C8_construction_stores_arguments tid fls sender :
  (∃ lg, __init__ tid fls sender = Ok lg ∧
         trace_id lg = tid ∧ flows lg = fls ∧ rpc lg = sender) ∧
  __init__ "" [] sender = Ok {| trace_id := ""; flows := []; rpc := sender |}.
Proof. split; [|reflexivity]. eexists. by split. Qed.

(** ** Scenarios: successive calls on one instance *)

Section Scenario.

Variable fl : Q → Q.







(** [sends] tells what the code does: the call makes its dispatch exactly
    when [sends] is true. *)
Lemma sends_dispatches c st :
  sends c = true ↔
  ∃ p, dispatches st (snd (call fl (method c) (message c) (extra c) st)) p.
Proof.
  unfold sends.
  destruct (merge_of (default VNone (extra c))) as [o|e] eqn:Hm.
  - split; [intros _|done]. eexists. by apply call_answers.
  - split; [discriminate|]. intros [p Hp].
    rewrite (call_stops fl _ _ _ _ e Hm) in Hp. by apply dispatches_grows in Hp.
Qed.








End Scenario.

(** ** Further properties of [_log] *)

Section Merge.

Variable fl : Q → Q.

(** X1: the attributes of a true object are merged as they are, nested
    values included; they are the only keys added, and a base field keeps
    its value unless an attribute has its name. *)
Theorem X1_object_extra_contributes_its_attributes sev msg hook (attrs : dict) st :
  truth (VObj hook attrs) = Ok true →
  ∃ p, dispatches st (snd (call fl sev msg (Some (VObj hook attrs)) st)) p ∧
       dom p = base_keys ∪ dom attrs ∧
       (∀ k v, attrs !! k = Some v → p !! k = Some v) ∧
       (∀ k, attrs !! k = None →
             p !! k = log_entry_of fl (method_name sev) (clock st) (self st) msg !! k).
Proof.
  intros Ht.
  assert (merge_of (VObj hook attrs) = Ok attrs) as Hm
    by (unfold merge_of; by rewrite Ht).
  eexists. split; [by apply call_answers|]. apply merged_shape.
Qed.

(** X2: every entry of a non-empty plain dict (an instance of [dict]
    itself) reaches the sender under its own key with its own value; no
    other key is added, and a base field keeps its value unless the dict
    has its name. *)
Theorem X2_dict_extra_contributes_its_entries sev msg (d : dict) st :
  d ≠ ∅ →
  ∃ p, dispatches st (snd (call fl sev msg (Some (VDict d)) st)) p ∧
       dom p = base_keys ∪ dom d ∧
       (∀ k v, d !! k = Some v → p !! k = Some v) ∧
       (∀ k, d !! k = None →
             p !! k = log_entry_of fl (method_name sev) (clock st) (self st) msg !! k).
Proof.
  intros Hd.
  assert (merge_of (VDict d) = Ok d) as Hm
    by (unfold merge_of; simpl; by rewrite bool_decide_eq_false_2).
  eexists. split; [by apply call_answers|]. apply merged_shape.
Qed.

(** X3: whatever the extra, every record a call puts on the wire is a
    ["log"] event for the sender of the instance, and its payload has all
    five base keys: the merge adds or overwrites, it never removes. *)
Theorem X3_base_keys_are_always_present sev msg args st :
  Forall (λ c, callee c = rpc (self st) ∧ event c = "log" ∧
               base_keys ⊆ dom (payload c))
         (sent_by (call fl sev msg args) st).
Proof.
  rewrite call_sent.
  destruct (merge_of (default VNone args)) as [o|e]; [|constructor].
  constructor; [|constructor]. simpl. split; [done|]. split; [done|].
  rewrite dom_union_L, log_entry_dom. apply union_subseteq_r.
Qed.


End Merge.

(** ** Exceptions *)

Section Exceptions.

Variable fl : Q → Q.

(** X4: once the payload is handed over, the sender alone decides how the
    call ends: an exception of [send_no_wait] is not caught and reaches the
    caller, after the call was made; otherwise the method returns. *)
Theorem X4_sender_decides_the_outcome sev msg args st p :
  dispatches st (snd (call fl sev msg args st)) p →
  fst (call fl sev msg args st) =
    if send_raises (rpc (self st)) "log" p then Raise SenderError else Ok tt.
Proof.
  intros Hp. destruct (merge_of (default VNone args)) as [o|e] eqn:Hm.
  - rewrite (call_outcome fl sev msg args st o Hm).
    by rewrite (dispatches_payload _ _ _ _ Hp (call_answers fl sev msg args st o Hm)).
  - rewrite (call_stops fl sev msg args st e Hm) in Hp. simpl in Hp.
    by apply dispatches_grows in Hp.
Qed.

(** X5: an exception of the truth test of the extra reaches the caller as
    it is, and the call leaves no trace: nothing is sent, the instance and
    the clock are as before. *)
Theorem X5_failed_truth_test_leaves_no_trace sev msg args st e :
  truth (default VNone args) = Raise e →
  fst (call fl sev msg args st) = Raise e ∧
  snd (call fl sev msg args st) = st ∧
  sent_by (call fl sev msg args) st = [].
Proof.
  intros He. pose proof (merge_of_raise _ _ He) as Hm.
  rewrite call_sent, (call_stops fl sev msg args st e Hm), Hm. done.
Qed.

(** X11: a true instance whose [__dict__] is a number gets through the
    truth test and [hasattr], and [update] refuses what [vars] returned:
    the call raises [TypeError] before the send and leaves no trace. *)
Theorem X11_number_as_dict_raises_before_the_send sev msg hook z st :
  truth (VOdd hook (SlotNumber z)) = Ok true →
  call fl sev msg (Some (VOdd hook (SlotNumber z))) st = (Raise TypeError, st).
Proof.
  intros Ht. apply call_stops. simpl in Ht. unfold merge_of. simpl.
  by rewrite Ht.
Qed.

End Exceptions.

(** ** The time field and the level tag *)

Section Fields.

Variable fl : Q → Q.

(** X7: for a clock whose millisecond product is not negative, the [time]
    field a call dispatches, unless the extra names it, is that product cut
    down to a whole number: never negative, never above the product, and
    less than one millisecond below it. *)
Theorem X7_time_is_whole_milliseconds sev msg args st :
  (0 <= float_mul fl (clock st) (inject_Z 1000))%Q →
  leaves "time" args →
  Forall (λ c, ∃ z, payload c !! "time" = Some (VInt z) ∧
                    0 <= z ∧
                    (inject_Z z <= float_mul fl (clock st) (inject_Z 1000))%Q ∧
                    (float_mul fl (clock st) (inject_Z 1000) < inject_Z z + 1)%Q)
         (sent_by (call fl sev msg args) st).
Proof.
  unfold leaves. intros Hpos Hl. rewrite call_sent.
  destruct (merge_of (default VNone args)) as [o|e] eqn:Hm; [|constructor].
  constructor; [|constructor]. simpl.
  exists (time_ms fl (clock st)). split.
  - pose proof (log_entry_base fl (method_name sev) (clock st) (self st) msg)
      as (_ & Ht & _).
    rewrite merged_keeps; [done|]. by apply (merge_of_leaves _ _ _ Hm).
  - by apply int_of_float_floor.
Qed.

(** The literals of two levels agree on every key but [level]. *)
Lemma log_entry_level_only l1 l2 t lg msg k :
  k ≠ "level" →
  log_entry_of fl l1 t lg msg !! k = log_entry_of fl l2 t lg msg !! k.
Proof.
  intros Hk. unfold log_entry_of.
  rewrite !lookup_insert. repeat case_decide; try done.
Qed.

(** X8: the four methods differ in the level tag only: on the same
    message, extra and state, two of them send the same number of records,
    with the same value under every key other than [level]. *)
Theorem X8_methods_differ_in_level_only sev1 sev2 msg args st k :
  k ≠ "level" →
  field_of k (sent_by (call fl sev1 msg args) st)
    = field_of k (sent_by (call fl sev2 msg args) st).
Proof.
  intros Hk. rewrite !call_sent. unfold field_of.
  destruct (merge_of (default VNone args)) as [o|e]; [|done].
  simpl. rewrite !lookup_union.
  by rewrite (log_entry_level_only (method_name sev1) (method_name sev2)).
Qed.

End Fields.

(** ** No call is dropped *)

Section Order.

Variable fl : Q → Q.


End Order.

(** ** The properties on sample calls *)

Lemma C1_witness :
  truth (VInt 42) = Ok true ∧
  ∃ p, dispatches sample_state
         (snd (call exact SInfo "hello" (Some (VInt 42)) sample_state)) p ∧
       has_base_fields p "info" 10000 sample_logger "hello" ∧
       p !! "data" = Some (VInt 42) ∧
       dom p = base_keys ∪ {["data"]}.
Proof.
  split; [reflexivity|].
  apply (C1_other_extra_is_wrapped_as_data exact SInfo "hello" (VInt 42) sample_state);
    reflexivity.
Defined.

Lemma C2_witness :
  msg_override !! "msg" = Some (VStr "overridden") ∧
  ∃ p, dispatches sample_state
         (snd (call exact SInfo "hello" (Some (VDict msg_override)) sample_state)) p ∧
       is_Some (log_entry_of exact "info" (10 # 1) sample_logger "hello" !! "msg") ∧
       p !! "msg" = Some (VStr "overridden") ∧
       (∀ k', msg_override !! k' = None →
              p !! k' = log_entry_of exact "info" (10 # 1) sample_logger "hello" !! k') ∧
       dom p = base_keys ∪ dom msg_override.
Proof.
  split; [reflexivity|].
  apply (C2_colliding_extra_field_wins exact SInfo "hello" msg_override "msg"
           (VStr "overridden") sample_state).
  - by vm_compute.
  - reflexivity.
Defined.

(** C2 as stated fails on an instance of a subclass of [dict]: it is a
    mapping with an entry [msg], and the payload carries the message of
    the call, since [_log] merges the attributes of the instance and not
    its entries. *)
Lemma C2_dict_subclass_entry_is_dropped :
  isinstance_dict (VMapObj msg_override ∅) = true ∧
  "msg" ∈ base_keys ∧
  msg_override !! "msg" = Some (VStr "overridden") ∧
  ∃ p, dispatches sample_state
         (snd (call exact SInfo "hello" (Some (VMapObj msg_override ∅)) sample_state)) p ∧
       p !! "msg" = Some (VStr "hello") ∧
       p !! "msg" ≠ Some (VStr "overridden").
Proof.
  split; [reflexivity|]. split; [by vm_compute|]. split; [reflexivity|].
  eexists. split.
  - by apply (call_answers exact SInfo "hello" (Some (VMapObj msg_override ∅))
                sample_state ∅).
  - split; [reflexivity|]. vm_compute. discriminate.
Qed.





Lemma C5_witness :
  ∃ p, dispatches sample_state (snd (call exact SInfo "hello" None sample_state)) p ∧
       has_base_fields p "info" 10000 sample_logger "hello" ∧
       dom p = base_keys.
Proof.
  apply (C5_absent_or_empty_extra_gives_base_fields exact SInfo "hello" None sample_state).
  by left.
Defined.


(** Of the three sample calls the first raises before the send; the other
    two are delivered. *)
Lemma mixed_calls_delivered :
  message <$> delivered mixed_calls = ["b"; "c"].
Proof. reflexivity. Qed.






Lemma C10_witness :
  truth (VInt 0) = Ok false ∧
  ∃ p, dispatches sample_state
         (snd (call exact SInfo "hello" (Some (VInt 0)) sample_state)) p ∧
       has_base_fields p "info" 10000 sample_logger "hello" ∧
       dom p = base_keys ∧
       p !! "data" = None.
Proof.
  split; [reflexivity|].
  apply (C10_falsy_extra_is_not_merged exact SInfo "hello" (VInt 0) sample_state).
  reflexivity.
Defined.

(** The other falsy values the truth test turns away. *)
Lemma falsy_samples :
  truth (VStr "") = Ok false ∧ truth (VBool false) = Ok false ∧
  truth (VList []) = Ok false ∧ truth (VObj (HookAnswers false) ∅) = Ok false ∧
  truth (VMapObj ∅ {[ "note" := VInt 1 ]}) = Ok false.
Proof. repeat split. Qed.

(** ** The further properties on sample calls *)

Lemma X1_witness :
  ∃ p, dispatches sample_state
         (snd (call exact SInfo "hello" (Some sample_object) sample_state)) p ∧
       dom p = base_keys ∪ {["user"]} ∧
       p !! "user" = Some (VObj NoHook {[ "id" := VInt 42 ]}).
Proof.
  destruct (X1_object_extra_contributes_its_attributes exact SInfo "hello" NoHook
              {[ "user" := VObj NoHook {[ "id" := VInt 42 ]} ]} sample_state)
    as (p & Hp & Hdom & Hin & _); [reflexivity|].
  exists p. split; [exact Hp|]. split.
  - by rewrite Hdom, dom_singleton_L.
  - apply Hin. reflexivity.
Defined.

Lemma X2_witness :
  ∃ p, dispatches sample_state
         (snd (call exact SInfo "hello" (Some (VDict {[ "userId" := VInt 42 ]}))
                 sample_state)) p ∧
       dom p = base_keys ∪ {["userId"]} ∧
       p !! "userId" = Some (VInt 42) ∧
       p !! "msg" = Some (VStr "hello").
Proof.
  destruct (X2_dict_extra_contributes_its_entries exact SInfo "hello"
              {[ "userId" := VInt 42 ]} sample_state)
    as (p & Hp & Hdom & Hin & Hout); [by vm_compute|].
  exists p. split; [exact Hp|]. split; [|split].
  - by rewrite Hdom, dom_singleton_L.
  - apply Hin. reflexivity.
  - rewrite Hout; reflexivity.
Defined.

Lemma X4_witness :
  fst (call exact SError "failed" None loud_state) = Raise SenderError ∧
  length (wire (snd (call exact SError "failed" None loud_state))) = 1%nat.
Proof.
  split; [|reflexivity].
  apply (X4_sender_decides_the_outcome exact SError "failed" None loud_state
           (log_entry_of exact "error" (10 # 1) (self loud_state) "failed")).
  reflexivity.
Defined.

Lemma X5_witness :
  fst (call exact SInfo "hello" (Some untestable) sample_state) = Raise HookError ∧
  snd (call exact SInfo "hello" (Some untestable) sample_state) = sample_state ∧
  sent_by (call exact SInfo "hello" (Some untestable)) sample_state = [].
Proof.
  apply (X5_failed_truth_test_leaves_no_trace exact SInfo "hello" (Some untestable)
           sample_state HookError).
  reflexivity.
Defined.

Lemma X7_witness :
  Forall (λ c, ∃ z, payload c !! "time" = Some (VInt z) ∧
                    0 <= z ∧
                    (inject_Z z <= float_mul exact (10 # 1) (inject_Z 1000))%Q ∧
                    (float_mul exact (10 # 1) (inject_Z 1000) < inject_Z z + 1)%Q)
         (sent_by (call exact SInfo "hello" None) sample_state).
Proof.
  apply (X7_time_is_whole_milliseconds exact SInfo "hello" None sample_state).
  - by vm_compute.
  - reflexivity.
Defined.

Lemma X8_witness :
  field_of "msg" (sent_by (call exact SInfo "hello" None) sample_state)
    = field_of "msg" (sent_by (call exact SDebug "hello" None) sample_state).
Proof.
  apply (X8_methods_differ_in_level_only exact SInfo SDebug "hello" None
           sample_state "msg").
  discriminate.
Defined.



Lemma X11_witness :
  call exact SInfo "hello" (Some odd_object) sample_state
    = (Raise TypeError, sample_state).
Proof.
  apply (X11_number_as_dict_raises_before_the_send exact SInfo "hello" NoHook 5
           sample_state).
  reflexivity.
Defined.
